(** * Smart-pay: the credential bootstrap and the crypto demo script

    A shallow embedding of the two Python scripts of the repository,

    - [Stock-crypto-portfolio-optimizer/.py], the credential and client
      bootstrap, and
    - [run_crypto_demo.py], the demo of the portfolio optimizer,

    and the properties their specification states about them.

    Both are straight-line module-level scripts.  A script is embedded as a
    computation in a small state-and-exception monad: the state holds what
    the script mutates (the process environment, the state of the
    pseudo-random generator) and the trace of what it does to the outside
    (the lines it prints, the external calls it makes); the result says
    whether the script ran to its last line, left through [exit], or died
    with an uncaught exception.

    Python floats are embedded as exact rationals ([Q], compared with
    [==]); rounding, overflow and NaN are outside the model. *)

From Stdlib Require Import Ascii QArith Qabs Qround Lqa.
From stdpp Require Import base option list strings gmap pretty.

Local Open Scope string_scope.

(** ** Scripts: state, trace and abnormal termination *)

Module Py.

(** How a (piece of a) script ends. *)
Inductive result (A : Type) : Type :=
| Ok (a : A)                 (* ran to completion with value [a] *)
| Exited (status : Z)        (* [exit(status)]: SystemExit *)
| Raised (exn : string).     (* an uncaught exception, by class name *)
Global Arguments Ok {A} a.
Global Arguments Exited {A} status.
Global Arguments Raised {A} exn.

Definition script (S A : Type) : Type := S → result A * S.

Global Instance script_ret {S} : MRet (script S) :=
  λ A a s, (Ok a, s).

Global Instance script_bind {S} : MBind (script S) :=
  λ A B k m s,
    match m s with
    | (Ok a, s') => k a s'
    | (Exited n, s') => (Exited n, s')
    | (Raised e, s') => (Raised e, s')
    end.

Definition get {S} : script S S := λ s, (Ok s, s).
Definition modify {S} (f : S → S) : script S unit := λ s, (Ok tt, f s).
Definition exit {S A} (status : Z) : script S A := λ s, (Exited status, s).
Definition raise {S A} (exn : string) : script S A := λ s, (Raised exn, s).

(** The value of a run that ended normally. *)
Definition value {S A} (r : result A * S) : option A :=
  match r.1 with
  | Ok a => Some a
  | _ => None
  end.

(** [s * n] on strings. *)
Fixpoint str_mul (s : string) (n : nat) : string :=
  match n with
  | O => ""
  | S n' => s +:+ str_mul s n'
  end.

End Py.

Import Py.

(** ** [Stock-crypto-portfolio-optimizer/.py] *)

Module Bootstrap.

(** What [OpenAIChatCompletionClient(model=..., api_key=...)] is given.
    The key is the value of the Python variable [api_key], which
    [os.getenv] may have left [None]. *)
Record Client : Type := {
  model : string;
  api_key : option string;
}.

(** An assistant agent: the client it wraps and its name. *)
Record Assistant : Type := {
  model_client : Client;
  name : string;
}.

(** The observable actions of the script, in program order. *)
Inductive event : Type :=
| Print (line : string)
| NewClient (c : Client)
| NewAssistant (a : Assistant).

Record World : Type := {
  dotenv_file : gmap string string;  (* the assignments of the .env file *)
  environ : gmap string string;      (* os.environ *)
  trace : list event;
}.

Definition emit (e : event) : script World unit :=
  modify (λ w, {| dotenv_file := dotenv_file w;
                  environ := environ w;
                  trace := trace w ++ [e] |}).

Definition print (line : string) : script World unit := emit (Print line).

(** [load_dotenv()]: every assignment of the .env file is put into
    [os.environ] unless the variable is already set there. *)
Definition load_dotenv : script World unit :=
  modify (λ w, {| dotenv_file := dotenv_file w;
                  environ := environ w ∪ dotenv_file w;
                  trace := trace w |}).

(** [os.getenv(name)]: [None] when the variable is not set. *)
Definition getenv (var : string) : script World (option string) :=
  w ← get; mret (environ w !! var).

(** Truth value of the object [os.getenv] returns: [None] and the empty
    string are false, every other string is true. *)
Definition truthy (v : option string) : bool :=
  match v with
  | None => false
  | Some s => negb (String.eqb s "")
  end.

(** [v == s] for a string literal [s]; [None] equals no string. *)
Definition py_eq (v : option string) (s : string) : bool :=
  match v with
  | None => false
  | Some s' => String.eqb s' s
  end.

(** The two constructors come from third-party packages.  A call that is
    well formed is recorded in the trace and returns the object built from
    its arguments.  [OpenAIChatCompletionClient] is called with keyword
    arguments only. *)
Definition OpenAIChatCompletionClient (model : string)
    (api_key : option string) : script World Client :=
  let c := {| model := model; api_key := api_key |} in
  emit (NewClient c);; mret c.

(** An argument of a call: a string or a client object. *)
Inductive argument : Type :=
| Str (s : string)
| Obj (c : Client).

(** How Python binds the arguments of a call to the parameters of the
    callee (parameters without defaults).  The positional arguments fill
    the parameters from the left; one more than there are parameters is a
    TypeError. *)
Fixpoint bind_positional (params : list string) (args : list argument)
    : option (gmap string argument) :=
  match args, params with
  | [], _ => Some ∅
  | _ :: _, [] => None
  | v :: args', p :: params' => <[p := v]> <$> bind_positional params' args'
  end.

(** Then every keyword argument fills the parameter it names; a name that
    is no parameter, or a parameter that already has a value ("got multiple
    values for argument"), is a TypeError. *)
Fixpoint bind_keywords (params : list string)
    (kwargs : list (string * argument)) (bound : gmap string argument)
    : option (gmap string argument) :=
  match kwargs with
  | [] => Some bound
  | (k, v) :: rest =>
      if bool_decide (k ∈ params) then
        match bound !! k with
        | Some _ => None
        | None => bind_keywords params rest (<[k := v]> bound)
        end
      else None
  end.

(** At the end a parameter left without a value is a TypeError too. *)
Definition bind_arguments (params : list string) (args : list argument)
    (kwargs : list (string * argument)) : option (gmap string argument) :=
  bound ← bind_positional params args;
  bound ← bind_keywords params kwargs bound;
  if bool_decide (Forall (λ p, is_Some (bound !! p)) params)
  then Some bound
  else None.

(** A call of [AssistantAgent], with its positional and its keyword
    arguments.  The library declares the constructor with the parameters
    [name] and [model_client], in this order; its further parameters are
    keyword-only and have defaults.  A call whose arguments do not bind
    raises TypeError; so does, here, one that binds a value of the wrong
    kind. *)
Definition AssistantAgent (args : list argument)
    (kwargs : list (string * argument)) : script World Assistant :=
  match bind_arguments ["name"; "model_client"] args kwargs with
  | None => raise "TypeError"
  | Some bound =>
      match bound !! "name", bound !! "model_client" with
      | Some (Str n), Some (Obj c) =>
          let a := {| model_client := c; name := n |} in
          emit (NewAssistant a);; mret a
      | _, _ => raise "TypeError"
      end
  end.

Definition placeholder : string := "your_openai_api_key_here".

Definition warning : list string :=
  [ "⚠️  Warning: Please set your OpenAI API key in the .env file";
    "   Replace 'your_openai_api_key_here' with your actual API key" ].

(** The module body; its value is the pair of module globals
    [(client, assistant)]. *)
Definition main : script World (Client * Assistant) :=
  load_dotenv;;
  api_key ← getenv "OPENAI_API_KEY";
  (if negb (truthy api_key) || py_eq api_key "your_openai_api_key_here"
   then
     print "⚠️  Warning: Please set your OpenAI API key in the .env file";;
     print "   Replace 'your_openai_api_key_here' with your actual API key";;
     exit 1
   else mret tt);;
  client ← OpenAIChatCompletionClient "gpt-4o-mini" api_key;
  assistant ← AssistantAgent [Obj client] [("name", Str "Assistant")];
  print "✅ OpenAI API client configured successfully!";;
  mret (client, assistant).

(** A fresh process: nothing printed, nothing called yet. *)
Definition start (dotenv env : gmap string string) : World :=
  {| dotenv_file := dotenv; environ := env; trace := [] |}.

Definition run (dotenv env : gmap string string)
    : result (Client * Assistant) * World :=
  main (start dotenv env).

(** The API key the script sees: the process environment wins over the
    .env file. *)
Definition effective_key (dotenv env : gmap string string) : option string :=
  (env ∪ dotenv) !! "OPENAI_API_KEY".

(** The guard of line 16, on the key [os.getenv] returns. *)
Definition rejected (key : option string) : bool :=
  negb (truthy key) || py_eq key placeholder.

Definition clients (t : list event) : list Client :=
  omap (λ e, match e with NewClient c => Some c | _ => None end) t.

Definition assistants (t : list event) : list Assistant :=
  omap (λ e, match e with NewAssistant a => Some a | _ => None end) t.

Definition printed (t : list event) : list string :=
  omap (λ e, match e with Print l => Some l | _ => None end) t.

End Bootstrap.

(** ** [run_crypto_demo.py] *)

Module Demo.

Local Open Scope Q_scope.

(** *** The pseudo-random generator

    The hidden generator of Python's [random] module, as an interface:
    the two primitives the functions used here are built on, with the
    ranges the library documents for them. *)
Class PRNG (G : Type) : Type := {
  (* Random.random(): the next float of [0.0, 1.0) *)
  next_random : G → Q * G;
  (* Random._randbelow(n): the next integer of range(n), for n > 0 *)
  next_randbelow : nat → G → nat * G;
  next_random_range g : 0 <= (next_random g).1 ∧ (next_random g).1 < 1;
  next_randbelow_lt n g : (0 < n)%nat → ((next_randbelow n g).1 < n)%nat;
}.

(** *** The portfolio *)

Record Holding : Type := {
  quantity : Q;   (* quantity held *)
  price : Q;      (* unit price *)
}.

(** Modelled from the spec: the portfolio object, whose class is defined
    in the module [crypto_portfolio_optimizer] that is not among the
    sources.  "A mapping from asset symbol to (quantity held, unit
    price)". *)
Abbreviation Portfolio := (gmap string Holding).

(** The spec's "sum of quantity × price". *)
Fixpoint sum_of_values (holdings : list (string * Holding)) : Q :=
  match holdings with
  | [] => 0
  | (_, h) :: rest => quantity h * price h + sum_of_values rest
  end.

(** Modelled from the spec: the total value of a portfolio, which the
    class of the module [crypto_portfolio_optimizer] computes and which is
    not among the sources.  "A derived total value (sum of quantity ×
    price)", accumulated over the entries of the mapping. *)
Definition portfolio_total (p : Portfolio) : Q :=
  map_fold (λ _ h acc, acc + quantity h * price h) 0 p.

(** Modelled from the spec: the method [get_portfolio_value] of the
    portfolio object, from the same missing module.  The "total-value
    accessor": the demo reads the total from the dict it returns, under the
    key ["total_value"]. *)
Definition get_portfolio_value (p : Portfolio) : gmap string Q :=
  {[ "total_value" := portfolio_total p ]}.

(** *** The script's world *)

Inductive event : Type :=
| Print (text : string)                 (* print(text) *)
| Generate                              (* generate_random_portfolio() *)
| Display (p : Portfolio)               (* p.display_portfolio() *)
| GetValue (p : Portfolio)              (* p.get_portfolio_value() *)
| Uniform (a b : Q)                     (* random.uniform(a, b) *)
| Choice (seq : list string)            (* random.choice(seq) *)
| Optimize (p : Portfolio) (amount : Q) (purpose : string).
                                        (* optimize_transaction(...) *)

Record World (G : Type) : Type := {
  rng : G;
  trace : list event;
}.
Global Arguments rng {G} w.
Global Arguments trace {G} w.

(** The functions the demo imports from [crypto_portfolio_optimizer],
    whose definitions are not among the sources.  They are taken as
    parameters: the generator may draw from the pseudo-random generator,
    the recommendation is any function of its three arguments.  A call is
    modelled as returning: an exception raised inside them is outside the
    model. *)
Record Backend (G : Type) : Type := {
  generate_random_portfolio : G → Portfolio * G;
  optimize_transaction : Portfolio → Q → string → string;
}.
Global Arguments generate_random_portfolio {G} b g.
Global Arguments optimize_transaction {G} b p amount purpose.

(** The module globals the script has bound when it ends. *)
Record Globals : Type := {
  portfolio : Portfolio;
  portfolio_data : gmap string Q;
  total_value : Q;
  amount : Q;
  purposes : list string;
  purpose : string;
  recommendation : string;
}.

Definition nl : string := String "010"%char "".

(** Rounding to the nearest integer, ties to the even one: how the format
    spec below rounds the exact value it is given. *)
Definition round_half_even (x : Q) : Z :=
  let f := Qfloor x in
  match Qcompare (x - inject_Z f) (1 # 2) with
  | Lt => f
  | Gt => (f + 1)%Z
  | Eq => if Z.even f then f else (f + 1)%Z
  end.

(** The format spec [:.2f]: fixed point, two digits after the point. *)
Definition format_2f (x : Q) : string :=
  let n := round_half_even (Qabs x * 100) in
  let cents := (n mod 100)%Z in
  (if Qle_bool 0 x then "" else "-")
    +:+ pretty (n / 100)%Z +:+ "."
    +:+ (if (cents <? 10)%Z then "0" else "") +:+ pretty cents.

Section Script.
Context {G : Type} `{!PRNG G} (backend : Backend G).

Definition emit (e : event) : script (World G) unit :=
  modify (λ w, {| rng := rng w; trace := trace w ++ [e] |}).

Definition print (text : string) : script (World G) unit :=
  emit (Print text).

(** Runs a primitive of the generator on the generator's state. *)
Definition draw {A} (f : G → A * G) : script (World G) A :=
  λ w, let r := f (rng w) in
       (Ok r.1, {| rng := r.2; trace := trace w |}).

(** [d[key]] on a dict. *)
Definition subscript {V} (d : gmap string V) (key : string)
    : script (World G) V :=
  match d !! key with
  | Some v => mret v
  | None => raise "KeyError"
  end.

(** [random.uniform(a, b)], which is [a + (b - a) * self.random()]. *)
Definition uniform (a b : Q) : script (World G) Q :=
  emit (Uniform a b);;
  r ← draw next_random;
  mret (a + (b - a) * r).

(** [random.choice(seq)], which is [seq[self._randbelow(len(seq))]] and
    raises IndexError on an empty sequence. *)
Definition choice (seq : list string) : script (World G) string :=
  emit (Choice seq);;
  if decide (length seq = 0%nat) then raise "IndexError" else
  i ← draw (next_randbelow (length seq));
  match seq !! i with
  | Some x => mret x
  | None => raise "IndexError"
  end.

(** Lines 17-28: the banner. *)
Definition banner : script (World G) unit :=
  print (str_mul "=" 80);;
  print "CRYPTO PORTFOLIO OPTIMIZER - DEMO";;
  print (str_mul "=" 80);;
  print "";;
  print "📊 This demo will:";;
  print "   1. Generate a random crypto portfolio";;
  print "   2. Show current prices and holdings";;
  print "   3. Simulate a transaction request";;
  print "   4. Provide AI-powered recommendations";;
  print "";;
  print (str_mul "=" 80);;
  print "".

(** Lines 38-40: "Generate random portfolio". *)
Definition generate : script (World G) Portfolio :=
  print ("🎲 Generating random portfolio..." +:+ nl);;
  emit Generate;;
  draw (generate_random_portfolio backend).

(** Lines 42-44: "Display portfolio". *)
Definition display (portfolio : Portfolio) : script (World G) unit :=
  print (nl +:+ str_mul "=" 80);;
  emit (Display portfolio).

(** Lines 46-51: "Generate random transaction"; binds [portfolio_data],
    [total_value], [amount], [purposes] and [purpose]. *)
Definition generate_transaction (portfolio : Portfolio)
    : script (World G) (gmap string Q * Q * Q * list string * string) :=
  emit (GetValue portfolio);;
  let portfolio_data := get_portfolio_value portfolio in
  total_value ← subscript portfolio_data "total_value";
  amount ← uniform (total_value * 0.2) (total_value * 0.4);
  let purposes :=
    ["payment to friend"; "online purchase"; "service payment"] in
  purpose ← choice purposes;
  mret (portfolio_data, total_value, amount, purposes, purpose).

(** Lines 53-58: the transaction banner. *)
Definition show_transaction (amount : Q) (purpose : string)
    : script (World G) unit :=
  print (nl +:+ str_mul "=" 80);;
  print "💸 TRANSACTION REQUEST";;
  print (str_mul "=" 80);;
  print ("Amount: $" +:+ format_2f amount);;
  print ("Purpose: " +:+ purpose);;
  print (str_mul "=" 80).

(** Lines 60-63: "Get recommendation". *)
Definition recommend (portfolio : Portfolio) (amount : Q)
    (purpose : string) : script (World G) string :=
  print (nl +:+ "🤖 Analyzing portfolio and generating recommendation..."
           +:+ nl);;
  emit (Optimize portfolio amount purpose);;
  let recommendation :=
    optimize_transaction backend portfolio amount purpose in
  print recommendation;;
  mret recommendation.

(** Lines 65-74: the closing banner. *)
Definition closing : script (World G) unit :=
  print (nl +:+ str_mul "=" 80);;
  print "✅ DEMO COMPLETE!";;
  print (str_mul "=" 80);;
  print "";;
  print "💡 To run the full interactive version:";;
  print "   cd python-backend";;
  print "   python crypto_portfolio_optimizer.py";;
  print "";;
  print "📚 For more info, see: python-backend/README.md";;
  print (str_mul "=" 80).

(** The module body.  The reconfiguration of stdout on Windows, the change
    of [sys.path] and the two imports are left out: they print nothing and
    bind none of the globals below (the import of the backend module is
    taken to do nothing but define the imported names). *)
Definition main : script (World G) Globals :=
  banner;;
  portfolio ← generate;
  display portfolio;;
  '(portfolio_data, total_value, amount, purposes, purpose) ←
    generate_transaction portfolio;
  show_transaction amount purpose;;
  recommendation ← recommend portfolio amount purpose;
  closing;;
  mret {| portfolio := portfolio;
          portfolio_data := portfolio_data;
          total_value := total_value;
          amount := amount;
          purposes := purposes;
          purpose := purpose;
          recommendation := recommendation |}.

(** A fresh process with the generator in state [seed]. *)
Definition start (seed : G) : World G := {| rng := seed; trace := [] |}.

Definition run (seed : G) : result Globals * World G := main (start seed).

End Script.




(** What a run that reaches the last line has done, in order, in terms of
    the values it has bound. *)
Definition transcript (v : Globals) : list event :=
  [ Print (str_mul "=" 80);
    Print "CRYPTO PORTFOLIO OPTIMIZER - DEMO";
    Print (str_mul "=" 80);
    Print "";
    Print "📊 This demo will:";
    Print "   1. Generate a random crypto portfolio";
    Print "   2. Show current prices and holdings";
    Print "   3. Simulate a transaction request";
    Print "   4. Provide AI-powered recommendations";
    Print "";
    Print (str_mul "=" 80);
    Print "";
    Print ("🎲 Generating random portfolio..." +:+ nl);
    Generate;
    Print (nl +:+ str_mul "=" 80);
    Display (portfolio v);
    GetValue (portfolio v);
    Uniform (total_value v * 0.2) (total_value v * 0.4);
    Choice (purposes v);
    Print (nl +:+ str_mul "=" 80);
    Print "💸 TRANSACTION REQUEST";
    Print (str_mul "=" 80);
    Print ("Amount: $" +:+ format_2f (amount v));
    Print ("Purpose: " +:+ purpose v);
    Print (str_mul "=" 80);
    Print (nl +:+ "🤖 Analyzing portfolio and generating recommendation..."
             +:+ nl);
    Optimize (portfolio v) (amount v) (purpose v);
    Print (recommendation v);
    Print (nl +:+ str_mul "=" 80);
    Print "✅ DEMO COMPLETE!";
    Print (str_mul "=" 80);
    Print "";
    Print "💡 To run the full interactive version:";
    Print "   cd python-backend";
    Print "   python crypto_portfolio_optimizer.py";
    Print "";
    Print "📚 For more info, see: python-backend/README.md";
    Print (str_mul "=" 80) ].

End Demo.

(** ** [run_crypto_demo.py], lines 7-12

    Before its first print the demo reconfigures the standard output on
    Windows, inside a [try] with a bare [except: pass].  The host is what
    these lines read and change, around the world of the rest of the
    script. *)

Module Launcher.

Import Demo.

Record Host (G : Type) : Type := {
  platform : string;          (* sys.platform *)
  stdout_encoding : string;   (* sys.stdout.encoding *)
  sys_path : list string;     (* sys.path *)
  process : World G;          (* the generator and the trace *)
}.
Global Arguments platform {G} h.
Global Arguments stdout_encoding {G} h.
Global Arguments sys_path {G} h.
Global Arguments process {G} h.

(** [sys.stdout.reconfigure(encoding=...)] is a method of whatever object
    [sys.stdout] is: a script on the encoding of the stream, which may
    raise. *)
Definition Reconfigure : Type := string → script string unit.

(** The method of a text stream: the encoding is replaced. *)
Definition text_stream : Reconfigure := λ encoding, modify (λ _, encoding).

(** A replaced [sys.stdout] that has no such method. *)
Definition no_such_method : Reconfigure := λ _, raise "AttributeError".

(** [try: body] / [except: pass].  A bare [except] catches every exception,
    SystemExit included; what the body did before it raised stays done. *)
Definition try_except_pass {S A} (body : script S A) : script S unit :=
  λ s, (Ok tt, (body s).2).

Section Script.
Context {G : Type} `{!PRNG G}.

(** Runs a method of the stream on the stream's state. *)
Definition on_stdout {A} (m : script string A) : script (Host G) A :=
  λ h, let r := m (stdout_encoding h) in
       (r.1, {| platform := platform h;
                stdout_encoding := r.2;
                sys_path := sys_path h;
                process := process h |}).

(** Lines 7-12: "Fix encoding for Windows". *)
Definition fix_encoding (reconfigure : Reconfigure) : script (Host G) unit :=
  h ← get;
  if String.eqb (platform h) "win32"
  then try_except_pass (on_stdout (reconfigure "utf-8"))
  else mret tt.

(** A fresh process on a given host. *)
Definition boot (platform encoding : string) (path : list string)
    (seed : G) : Host G :=
  {| platform := platform;
     stdout_encoding := encoding;
     sys_path := path;
     process := start seed |}.

End Script.

End Launcher.

(** ** A concrete generator and backend

    A linear congruential generator as an instance of the generator
    interface, and the portfolio of the spec's example scenario behind the
    backend interface: the inputs the examples below are run on. *)

Module Scenario.

Import Demo.

Definition lcg_step (s : Z) : Z := ((1103515245 * s + 12345) mod 2147483648)%Z.

Definition lcg_random (s : Z) : Q * Z :=
  let s' := lcg_step s in (s' # 2147483648, s').

Definition lcg_randbelow (n : nat) (s : Z) : nat * Z :=
  let s' := lcg_step s in (Z.to_nat (s' mod Z.of_nat n), s').

#[export] Program Instance lcg : PRNG Z := {|
  next_random := lcg_random;
  next_randbelow := lcg_randbelow;
|}.
Next Obligation.
  intros s.
  pose proof (Z.mod_pos_bound (1103515245 * s + 12345) 2147483648 eq_refl)
    as [Hlo Hhi].
  unfold lcg_random, lcg_step, Qle, Qlt; simpl. lia.
Qed.
Next Obligation.
  intros n s Hn. unfold lcg_randbelow; simpl.
  pose proof (Z.mod_pos_bound (lcg_step s) (Z.of_nat n)). lia.
Qed.

(** The spec's example: [{BTC: 0.1 @ $60000, ETH: 2 @ $3000}]. *)
Definition example_portfolio : Portfolio :=
  {[ "BTC" := {| quantity := 0.1; price := 60000 |};
     "ETH" := {| quantity := 2; price := 3000 |} ]}.

Definition example_backend : Backend Z := {|
  generate_random_portfolio g := (example_portfolio, g);
  optimize_transaction p amount purpose := "Pay with ETH for " +:+ purpose;
|}.

(** Another portfolio of the same total value, in one holding. *)
Definition single_portfolio : Portfolio :=
  {[ "SOL" := {| quantity := 100; price := 120 |} ]}.

(** The template .env file, with the placeholder left in. *)
Definition template_dotenv : gmap string string :=
  {[ "OPENAI_API_KEY" := "your_openai_api_key_here" ]}.

End Scenario.

(** ** Further concrete inputs *)

Module Cases.

Import Demo Scenario.


(** A portfolio with a short position, whose total value is negative. *)
Definition short_portfolio : Portfolio :=
  {[ "BTC" := {| quantity := -1; price := 100 |} ]}.

Definition short_backend : Backend Z := {|
  generate_random_portfolio g := (short_portfolio, g);
  optimize_transaction p amount purpose := "Cover the short first";
|}.

(** A stream whose [reconfigure] leaves through [exit]. *)
Definition exiting_stream : Launcher.Reconfigure := λ _, exit 3.

End Cases.

(** * Properties *)

(** ** The credential bootstrap *)

Section BootstrapProperties.

Import Bootstrap.

Implicit Types dotenv env : gmap string string.

Lemma rejected_spec (key : option string) :
  rejected key = true ↔ key = None ∨ key = Some "" ∨ key = Some placeholder.
Proof.
  unfold rejected, truthy, py_eq. destruct key as [k|]; simpl.
  - rewrite orb_true_iff, negb_true_iff, negb_false_iff, !String.eqb_eq.
    split; [intros [->| ->]; auto | intros [?|[?|?]]; simplify_eq; auto].
  - split; auto.
Qed.

(** Line 26 passes the client as the first positional argument, which is
    the parameter [name], and passes [name] again by keyword: the
    arguments do not bind. *)
Lemma assistant_arguments_do_not_bind (c : Client) :
  bind_arguments ["name"; "model_client"]
    [Obj c] [("name", Str "Assistant")] = None.
Proof. reflexivity. Qed.

(** The two ways the script can run, told apart by the guard. *)
Lemma run_cases dotenv env :
  let key := effective_key dotenv env in
  let world t :=
    {| dotenv_file := dotenv; environ := env ∪ dotenv; trace := t |} in
  let c := {| model := "gpt-4o-mini"; api_key := key |} in
  run dotenv env =
    if rejected key
    then (Exited 1, world (Print <$> warning))
    else (Raised "TypeError", world [NewClient c]).
Proof.
  intros key world c. unfold run, main, start.
  unfold mbind, script_bind, load_dotenv, getenv, modify, get; simpl.
  fold (effective_key dotenv env). fold key. unfold mbind, script_bind; simpl.
  unfold rejected, placeholder. fold key.
  destruct (negb (truthy key) || py_eq key _); [reflexivity|].
  unfold AssistantAgent. fold c.
  rewrite (assistant_arguments_do_not_bind c). reflexivity.
Qed.

(** C1.  Whenever the API key the script reads is absent or is the
    placeholder ["your_openai_api_key_here"], the script prints the two
    lines of the warning and nothing else, leaves through [exit(1)], and
    has constructed neither a client nor an assistant. *)
Theorem bootstrap_rejects_missing_or_placeholder dotenv env :
  effective_key dotenv env = None
    ∨ effective_key dotenv env = Some placeholder →
  ∃ w, run dotenv env = (Exited 1, w)
     ∧ trace w = Print <$> warning
     ∧ printed (trace w) = warning
     ∧ clients (trace w) = []
     ∧ assistants (trace w) = [].
Proof.
  intros Hkey. rewrite run_cases.
  assert (rejected (effective_key dotenv env) = true) as ->
    by (apply rejected_spec; tauto).
  eexists; repeat split; reflexivity.
Qed.

(** C2, on the code.  Whenever the API key the script reads is a non-empty
    string other than the placeholder, the script does not leave through
    [exit] and constructs exactly one client, for the model ["gpt-4o-mini"]
    and with that key; but the call of [AssistantAgent] at line 26 then
    raises TypeError: no assistant is constructed, the line after it is not
    reached, and nothing is printed. *)
Theorem bootstrap_valid_key_dies_at_assistant dotenv env (key : string) :
  effective_key dotenv env = Some key →
  key ≠ "" →
  key ≠ placeholder →
  ∃ c w, run dotenv env = (Raised "TypeError", w)
     ∧ trace w = [NewClient c]
     ∧ clients (trace w) = [c]
     ∧ model c = "gpt-4o-mini"
     ∧ api_key c = Some key
     ∧ assistants (trace w) = []
     ∧ printed (trace w) = [].
Proof.
  intros Hkey Hne Hph. rewrite run_cases.
  destruct (rejected (effective_key dotenv env)) eqn:Hrej.
  - apply rejected_spec in Hrej. rewrite Hkey in Hrej.
    destruct Hrej as [?|[?|?]]; simplify_eq.
  - rewrite Hkey. do 2 eexists; repeat split; reflexivity.
Qed.

(** C8.  A key that is set to the empty string is handled exactly like a
    key that is not set at all: the same two warning lines, the same
    [exit(1)]. *)
Theorem bootstrap_empty_key_as_absent dotenv env dotenv' env' :
  effective_key dotenv env = Some "" →
  effective_key dotenv' env' = None →
  (run dotenv env).1 = Exited 1
    ∧ trace (run dotenv env).2 = Print <$> warning
    ∧ (run dotenv env).1 = (run dotenv' env').1
    ∧ trace (run dotenv env).2 = trace (run dotenv' env').2.
Proof.
  intros Hempty Habsent. rewrite !run_cases.
  assert (rejected (effective_key dotenv env) = true) as ->
    by (apply rejected_spec; tauto).
  assert (rejected (effective_key dotenv' env') = true) as ->
    by (apply rejected_spec; tauto).
  repeat split; reflexivity.
Qed.

End BootstrapProperties.

(** ** The demo script *)

Section DemoProperties.

Import Demo.
Local Open Scope Q_scope.

Context {G : Type} `{!PRNG G} (backend : Backend G).

Implicit Types (p : Portfolio) (w : World G) (g : G).

Lemma get_portfolio_value_total p :
  get_portfolio_value p !! "total_value" = Some (portfolio_total p).
Proof. apply lookup_singleton_eq. Qed.

Lemma bind_ok {A B} (m : script (World G) A) (k : A → script (World G) B)
    w a w' :
  m w = (Ok a, w') → (m ≫= k) w = k a w'.
Proof. intros Hm. unfold mbind, script_bind. by rewrite Hm. Qed.

Lemma print_run text w :
  print text w = (Ok tt, {| rng := rng w; trace := trace w ++ [Print text] |}).
Proof. reflexivity. Qed.

Lemma emit_run e w :
  emit e w = (Ok tt, {| rng := rng w; trace := trace w ++ [e] |}).
Proof. reflexivity. Qed.

Lemma draw_run {A} (f : G → A * G) w :
  draw f w = (Ok (f (rng w)).1, {| rng := (f (rng w)).2; trace := trace w |}).
Proof. reflexivity. Qed.

Lemma subscript_total p w :
  subscript (get_portfolio_value p) "total_value" w
    = (Ok (portfolio_total p), w).
Proof. unfold subscript. by rewrite get_portfolio_value_total. Qed.

Lemma uniform_run a b w :
  uniform a b w =
    (Ok (a + (b - a) * (next_random (rng w)).1),
     {| rng := (next_random (rng w)).2;
        trace := trace w ++ [Uniform a b] |}).
Proof.
  unfold uniform.
  rewrite (bind_ok _ _ _ _ _ (emit_run _ _)).
  rewrite (bind_ok _ _ _ _ _ (draw_run _ _)). reflexivity.
Qed.

Lemma choice_run (seq : list string) w :
  seq ≠ [] →
  ∃ x, seq !! (next_randbelow (length seq) (rng w)).1 = Some x
     ∧ choice seq w =
         (Ok x, {| rng := (next_randbelow (length seq) (rng w)).2;
                   trace := trace w ++ [Choice seq] |}).
Proof.
  intros Hseq.
  assert (0 < length seq)%nat as Hlen by (destruct seq; simpl; [done|lia]).
  destruct (lookup_lt_is_Some_2 seq _ (next_randbelow_lt _ (rng w) Hlen))
    as [x Hx].
  exists x. split; [done|]. unfold choice.
  rewrite (bind_ok _ _ _ _ _ (emit_run _ _)).
  destruct (decide (length seq = 0%nat)); [lia|].
  rewrite (bind_ok _ _ _ _ _ (draw_run _ _)). simpl. by rewrite Hx.
Qed.

(** The run of the script from generator state [g], in full. *)
Lemma run_complete g :
  let gen := generate_random_portfolio backend g in
  let total := portfolio_total gen.1 in
  let rnd := next_random gen.2 in
  let pick := next_randbelow 3 rnd.2 in
  ∃ purpose v,
    ["payment to friend"; "online purchase"; "service payment"] !! pick.1
      = Some purpose
    ∧ v = {| portfolio := gen.1;
             portfolio_data := get_portfolio_value gen.1;
             total_value := total;
             amount := total * 0.2 + (total * 0.4 - total * 0.2) * rnd.1;
             purposes :=
               ["payment to friend"; "online purchase"; "service payment"];
             purpose := purpose;
             recommendation :=
               optimize_transaction backend gen.1
                 (total * 0.2 + (total * 0.4 - total * 0.2) * rnd.1)
                 purpose |}
    ∧ run backend g = (Ok v, {| rng := pick.2; trace := transcript v |}).
Proof.
  intros gen total rnd pick.
  unfold run, main, banner, generate, display, generate_transaction,
    show_transaction, recommend, closing, start.
  cbv [mbind script_bind mret script_ret print emit modify draw rng trace app].
  fold gen. rewrite subscript_total. fold total.
  cbv [mbind script_bind mret script_ret print emit modify draw rng trace app].
  rewrite uniform_run.
  cbv [mbind script_bind mret script_ret print emit modify draw rng trace app].
  fold rnd.
  match goal with |- context [choice ?s ?w] =>
    destruct (choice_run s w) as (x & Hx & ->); [done|] end.
  cbv [mbind script_bind mret script_ret print emit modify draw rng trace app].
  eexists x, _. split; [exact Hx|]. split; reflexivity.
Qed.

(** [random.uniform(lo, hi)] stays between its arguments when they are
    in order. *)
Lemma uniform_between (lo hi r : Q) :
  lo <= hi → 0 <= r → r < 1 →
  lo <= lo + (hi - lo) * r ∧ lo + (hi - lo) * r <= hi.
Proof. intros Hlh Hr0 Hr1. split; nra. Qed.

(** The accumulated total is the sum of the values of the entries. *)
Lemma portfolio_total_sum p :
  portfolio_total p == sum_of_values (map_to_list p).
Proof.
  unfold portfolio_total. rewrite map_fold_foldr.
  induction (map_to_list p) as [|[s h] l IH]; simpl.
  - reflexivity.
  - rewrite IH. ring.
Qed.

(** Holdings with non-negative quantities and prices have a non-negative
    total. *)
Lemma portfolio_total_nonneg p :
  map_Forall (λ _ h, 0 <= quantity h ∧ 0 <= price h) p →
  0 <= portfolio_total p.
Proof.
  intros Hp. rewrite portfolio_total_sum.
  apply map_Forall_to_list in Hp.
  induction Hp as [|[s h] l [Hq Hpr] _ IH]; simpl in *.
  - lra.
  - nra.
Qed.

(** C3, amended.  In every run in which the total value of the generated
    portfolio is not negative (as it is when no holding has a negative quantity or
    price), the sampled amount lies between 20% and 40% of that total,
    both ends included. *)
Theorem sampled_amount_within_bounds g :
  0 <= portfolio_total (generate_random_portfolio backend g).1 →
  ∃ v w, run backend g = (Ok v, w)
     ∧ total_value v = portfolio_total (generate_random_portfolio backend g).1
     ∧ 0.2 * total_value v <= amount v
     ∧ amount v <= 0.4 * total_value v.
Proof.
  intros Htotal.
  destruct (run_complete g) as (x & v & _ & -> & Hrun).
  eexists _, _. split; [exact Hrun|]. simpl. split; [done|].
  destruct (next_random_range (generate_random_portfolio backend g).2)
    as [Hr0 Hr1].
  set (t := portfolio_total _) in *. set (r := (next_random _).1) in *.
  destruct (uniform_between (t * 0.2) (t * 0.4) r) as [Hlo Hhi];
    [lra | done | done |].
  split; lra.
Qed.

(** C4.  For every state of the generator the run starts in, the total
    value the demo reads from the portfolio is the sum of quantity × price
    over the holdings of the portfolio that was generated. *)
Theorem total_value_is_sum_of_holdings g :
  ∃ v w, run backend g = (Ok v, w)
     ∧ portfolio v = (generate_random_portfolio backend g).1
     ∧ portfolio_data v = get_portfolio_value (portfolio v)
     ∧ portfolio_data v !! "total_value" = Some (total_value v)
     ∧ total_value v == sum_of_values (map_to_list (portfolio v)).
Proof.
  destruct (run_complete g) as (x & v & _ & -> & Hrun).
  eexists _, _. split; [exact Hrun|]. simpl.
  split; [done|]. split; [done|].
  split; [apply get_portfolio_value_total | apply portfolio_total_sum].
Qed.

(** C5.  In every run the purpose is the element, at the index the
    generator draws below 3, of the list of the three distinct strings
    "payment to friend", "online purchase" and "service payment": it is
    one of the three, and each of the three is chosen by exactly one of the
    three equally likely indices. *)
Theorem purpose_chosen_from_fixed_set g :
  ∃ v w, run backend g = (Ok v, w)
     ∧ purposes v =
         ["payment to friend"; "online purchase"; "service payment"]
     ∧ NoDup (purposes v)
     ∧ purpose v ∈ purposes v
     ∧ purposes v !!
         (next_randbelow 3
            (next_random (generate_random_portfolio backend g).2).2).1
         = Some (purpose v)
     ∧ ∀ s, s ∈ purposes v →
         length (List.filter
                   (λ i, bool_decide (purposes v !! i = Some s))
                   (seq 0 3)) = 1%nat.
Proof.
  destruct (run_complete g) as (x & v & Hx & -> & Hrun).
  eexists _, _. split; [exact Hrun|]. simpl.
  split; [done|]. split; [|split; [|split; [exact Hx|]]].
  - compute_done.
  - eapply list_elem_of_lookup_2, Hx.
  - intros s Hs. set_unfold in Hs.
    destruct Hs as [->|[->|[->|[]]]]; reflexivity.
Qed.


(** The sampling step on its own, from any world. *)
Lemma generate_transaction_run p w :
  let total := portfolio_total p in
  let rnd := next_random (rng w) in
  let pick := next_randbelow 3 rnd.2 in
  ∃ x w',
    ["payment to friend"; "online purchase"; "service payment"] !! pick.1
      = Some x
    ∧ rng w' = pick.2
    ∧ generate_transaction p w =
        (Ok (get_portfolio_value p, total,
             total * 0.2 + (total * 0.4 - total * 0.2) * rnd.1,
             ["payment to friend"; "online purchase"; "service payment"],
             x), w').
Proof.
  intros total rnd pick. unfold generate_transaction.
  rewrite (bind_ok _ _ _ _ _ (emit_run _ _)).
  rewrite (bind_ok _ _ _ _ _ (subscript_total _ _)).
  rewrite (bind_ok _ _ _ _ _ (uniform_run _ _ _)).
  match goal with |- context [mbind _ (choice ?s) ?w0] =>
    destruct (choice_run s w0) as (x & Hx & Hc); [done|] end.
  rewrite (bind_ok _ _ _ _ _ Hc).
  eexists x, _. split; [exact Hx|]. split; [|reflexivity]. reflexivity.
Qed.

(** C9.  The sampling step, run on two portfolios of equal total value
    from the same state of the generator, yields equal amounts (and the
    same purpose, and leaves the generator in the same state), whatever the
    holdings are. *)
Theorem sampled_amount_depends_on_total_only p1 p2 w1 w2 :
  rng w1 = rng w2 →
  portfolio_total p1 == portfolio_total p2 →
  ∃ a1 a2 s g',
    (∃ d t ps w', generate_transaction p1 w1 = (Ok (d, t, a1, ps, s), w')
                  ∧ rng w' = g')
    ∧ (∃ d t ps w', generate_transaction p2 w2 = (Ok (d, t, a2, ps, s), w')
                    ∧ rng w' = g')
    ∧ a1 == a2.
Proof.
  intros Hrng Htotal.
  destruct (generate_transaction_run p1 w1) as (x1 & w1' & Hx1 & Hg1 & Hrun1).
  destruct (generate_transaction_run p2 w2) as (x2 & w2' & Hx2 & Hg2 & Hrun2).
  rewrite <- Hrng in Hx2, Hg2, Hrun2.
  assert (x2 = x1) as -> by congruence.
  eexists _, _, x1, _. split; [|split].
  - eexists _, _, _, _. split; [exact Hrun1 | exact Hg1].
  - eexists _, _, _, _. split; [exact Hrun2 | exact Hg2].
  - rewrite Htotal. reflexivity.
Qed.

(** C10.  Whatever string [optimize_transaction] returns, the line the
    demo prints directly after the call is that string, unchanged. *)
Theorem recommendation_printed_verbatim g :
  ∃ v w before after, run backend g = (Ok v, w)
     ∧ recommendation v =
         optimize_transaction backend (portfolio v) (amount v) (purpose v)
     ∧ trace w = (before
                  ++ [ Optimize (portfolio v) (amount v) (purpose v);
                       Print (optimize_transaction backend
                                (portfolio v) (amount v) (purpose v)) ]
                  ++ after)%list.
Proof.
  destruct (run_complete g) as (x & v & _ & -> & Hrun).
  eexists _, _, _, _. split; [exact Hrun|]. simpl. split; [done|].
  match goal with |- transcript ?v = _ =>
    by instantiate (1 := drop 28 (transcript v));
       instantiate (1 := take 26 (transcript v)) end.
Qed.

End DemoProperties.

(** ** The properties on concrete inputs *)

Section Examples.

Import Bootstrap Demo Scenario.
Local Open Scope Q_scope.

Lemma bootstrap_rejects_missing_or_placeholder_witness :
  (effective_key template_dotenv ∅ = None
     ∨ effective_key template_dotenv ∅ = Some placeholder)
  ∧ ∃ w, Bootstrap.run template_dotenv ∅ = (Exited 1, w)
       ∧ Bootstrap.trace w = Bootstrap.Print <$> warning
       ∧ printed (Bootstrap.trace w) = warning
       ∧ clients (Bootstrap.trace w) = []
       ∧ assistants (Bootstrap.trace w) = [].
Proof.
  split.
  - right. vm_compute. reflexivity.
  - apply (bootstrap_rejects_missing_or_placeholder template_dotenv ∅).
    right. vm_compute. reflexivity.
Defined.

Lemma bootstrap_valid_key_dies_at_assistant_witness :
  (effective_key ∅ {[ "OPENAI_API_KEY" := "sk-test" ]} = Some "sk-test"
     ∧ "sk-test" ≠ "" ∧ "sk-test" ≠ placeholder)
  ∧ ∃ c w,
      Bootstrap.run ∅ {[ "OPENAI_API_KEY" := "sk-test" ]}
        = (Raised "TypeError", w)
      ∧ Bootstrap.trace w = [NewClient c]
      ∧ clients (Bootstrap.trace w) = [c]
      ∧ model c = "gpt-4o-mini"
      ∧ api_key c = Some "sk-test"
      ∧ assistants (Bootstrap.trace w) = []
      ∧ printed (Bootstrap.trace w) = [].
Proof.
  split.
  - split; [vm_compute; reflexivity | split; discriminate].
  - apply (bootstrap_valid_key_dies_at_assistant
             ∅ {[ "OPENAI_API_KEY" := "sk-test" ]} "sk-test").
    + vm_compute. reflexivity.
    + discriminate.
    + discriminate.
Defined.

(** The process environment has the key set to the empty string; that the
    .env file has a real key does not matter. *)
Lemma bootstrap_empty_key_as_absent_witness :
  let dotenv : gmap string string := {[ "OPENAI_API_KEY" := "sk-test" ]} in
  let env : gmap string string := {[ "OPENAI_API_KEY" := "" ]} in
  (effective_key dotenv env = Some "" ∧ effective_key ∅ ∅ = None)
  ∧ (Bootstrap.run dotenv env).1 = Exited 1
  ∧ Bootstrap.trace (Bootstrap.run dotenv env).2
      = Bootstrap.Print <$> warning
  ∧ (Bootstrap.run dotenv env).1 = (Bootstrap.run ∅ ∅).1
  ∧ Bootstrap.trace (Bootstrap.run dotenv env).2
      = Bootstrap.trace (Bootstrap.run ∅ ∅).2.
Proof.
  intros dotenv env. split.
  - split; vm_compute; reflexivity.
  - apply (bootstrap_empty_key_as_absent dotenv env ∅ ∅).
    + vm_compute. reflexivity.
    + vm_compute. reflexivity.
Defined.

(** The call of line 26 written in either of the two ways that bind: the
    name first, or both arguments by keyword. *)
Example assistant_arguments_that_bind (c : Client) :
  bind_arguments ["name"; "model_client"] [Str "Assistant"; Obj c] []
    = Some {[ "name" := Str "Assistant"; "model_client" := Obj c ]}
  ∧ bind_arguments ["name"; "model_client"] []
      [("name", Str "Assistant"); ("model_client", Obj c)]
    = Some {[ "name" := Str "Assistant"; "model_client" := Obj c ]}.
Proof. split; reflexivity. Qed.

(** The spec's example: the total value of [{BTC: 0.1 @ $60000,
    ETH: 2 @ $3000}] is $12000. *)
Example example_total : portfolio_total example_portfolio == 12000.
Proof. vm_compute. reflexivity. Qed.

Lemma sampled_amount_within_bounds_witness :
  0 <= portfolio_total (generate_random_portfolio example_backend 42%Z).1
  ∧ ∃ v w, Demo.run example_backend 42%Z = (Ok v, w)
       ∧ total_value v
           = portfolio_total (generate_random_portfolio example_backend 42%Z).1
       ∧ 0.2 * total_value v <= amount v
       ∧ amount v <= 0.4 * total_value v.
Proof.
  split.
  - vm_compute. discriminate.
  - apply (sampled_amount_within_bounds example_backend 42%Z).
    vm_compute. discriminate.
Defined.

Lemma sampled_amount_depends_on_total_only_witness :
  let w1 : World Z := {| rng := 42%Z; trace := [] |} in
  let w2 : World Z := {| rng := 42%Z; trace := [Generate] |} in
  (rng w1 = rng w2
     ∧ portfolio_total example_portfolio == portfolio_total single_portfolio)
  ∧ ∃ a1 a2 s g',
      (∃ d t ps w',
          generate_transaction example_portfolio w1
            = (Ok (d, t, a1, ps, s), w') ∧ rng w' = g')
      ∧ (∃ d t ps w',
            generate_transaction single_portfolio w2
              = (Ok (d, t, a2, ps, s), w') ∧ rng w' = g')
      ∧ a1 == a2.
Proof.
  intros w1 w2. split.
  - split; [reflexivity | vm_compute; reflexivity].
  - apply (sampled_amount_depends_on_total_only
             example_portfolio single_portfolio w1 w2).
    + reflexivity.
    + vm_compute. reflexivity.
Defined.

(** The spec's example: with a total of $12000 the sampled amount is in
    the range $2400–$4800, whatever the state of the generator. *)
Example example_amount_range (seed : Z) :
  ∃ v w, Demo.run example_backend seed = (Ok v, w)
     ∧ 2400 <= amount v ∧ amount v <= 4800.
Proof.
  destruct (run_complete example_backend seed) as (x & v & _ & -> & Hrun).
  eexists _, _. split; [exact Hrun|]. cbn [amount]. clear Hrun.
  pose proof example_total as Ht.
  destruct (next_random_range seed) as [Hr0 Hr1].
  set (t := portfolio_total _) in *. set (r := (next_random _).1) in *.
  clearbody t r.
  destruct (uniform_between (t * 0.2) (t * 0.4) r) as [Hlo Hhi];
    [lra | done | done |].
  split; lra.
Qed.

(** One run in full: seed 42 on the example portfolio. *)
Example example_run :
  (λ v, (purpose v, format_2f (amount v), recommendation v))
    <$> value (Demo.run example_backend 42%Z)
  = Some ("service payment", "3797.54", "Pay with ETH for service payment").
Proof. vm_compute. reflexivity. Qed.

End Examples.

(** * Further properties *)

(** ** The credential bootstrap: outcomes, output and the .env file *)

Section BootstrapFurther.

Import Bootstrap.

Implicit Types dotenv env : gmap string string.

(** The variable of the process environment, when set, hides the one of
    the .env file. *)
Lemma effective_key_cases dotenv env :
  effective_key dotenv env =
    match env !! "OPENAI_API_KEY" with
    | Some k => Some k
    | None => dotenv !! "OPENAI_API_KEY"
    end.
Proof.
  unfold effective_key. rewrite lookup_union.
  destruct (env !! "OPENAI_API_KEY"), (dotenv !! "OPENAI_API_KEY"); done.
Qed.

(** The run depends on the two maps only through the key read. *)
Lemma run_by_key dotenv env dotenv' env' :
  effective_key dotenv env = effective_key dotenv' env' →
  (run dotenv env).1 = (run dotenv' env').1
  ∧ trace (run dotenv env).2 = trace (run dotenv' env').2.
Proof.
  intros Hkey. rewrite !run_cases, Hkey.
  destruct (rejected (effective_key dotenv' env')); done.
Qed.

(** X2.  What the script prints tells only whether the key passed the
    guard: two runs whose keys are both accepted, or both rejected, print
    the same lines, whatever the keys are. *)
Theorem bootstrap_output_independent_of_key dotenv env dotenv' env' :
  rejected (effective_key dotenv env) = rejected (effective_key dotenv' env') →
  printed (trace (run dotenv env).2) = printed (trace (run dotenv' env').2).
Proof.
  intros Hrej. rewrite !run_cases, Hrej.
  destruct (rejected (effective_key dotenv' env')); reflexivity.
Qed.

(** X3.  When the variable is set in the process environment, the .env
    file makes no difference to the run. *)
Theorem dotenv_ignored_when_variable_set dotenv dotenv' env (k : string) :
  env !! "OPENAI_API_KEY" = Some k →
  (run dotenv env).1 = (run dotenv' env).1
  ∧ trace (run dotenv env).2 = trace (run dotenv' env).2.
Proof.
  intros Hset. apply run_by_key. by rewrite !effective_key_cases, Hset.
Qed.

(** X4.  When the variable is not set in the process environment, the run
    is the one of a process that has the variable set to the value the .env
    file gives it. *)
Theorem dotenv_used_when_variable_unset dotenv env (v : string) :
  env !! "OPENAI_API_KEY" = None →
  dotenv !! "OPENAI_API_KEY" = Some v →
  (run dotenv env).1 = (run ∅ (<["OPENAI_API_KEY" := v]> env)).1
  ∧ trace (run dotenv env).2
      = trace (run ∅ (<["OPENAI_API_KEY" := v]> env)).2.
Proof.
  intros Hunset Hfile. apply run_by_key.
  by rewrite !effective_key_cases, Hunset, Hfile, lookup_insert_eq.
Qed.

(** X5.  A variable set to the empty string in the process environment
    makes the script exit with the warning even when the .env file holds a
    key: the file cannot repair an empty variable. *)
Theorem empty_variable_masks_dotenv_key dotenv env :
  env !! "OPENAI_API_KEY" = Some "" →
  (run dotenv env).1 = Exited 1
  ∧ printed (trace (run dotenv env).2) = warning
  ∧ clients (trace (run dotenv env).2) = [].
Proof.
  intros Hset. rewrite run_cases.
  assert (effective_key dotenv env = Some "") as ->
    by (by rewrite effective_key_cases, Hset).
  done.
Qed.

End BootstrapFurther.

(** ** The demo script: the encoding fix *)

Section LauncherProperties.

Import Demo Launcher.

Context {G : Type} `{!PRNG G}.

Implicit Types (h : Host G) (reconfigure : Reconfigure).

(** X7.  On a platform other than win32 the stream is left alone:
    [reconfigure] is not run and the host is unchanged. *)
Theorem fix_encoding_only_on_windows reconfigure h :
  platform h ≠ "win32" →
  fix_encoding reconfigure h = (Ok tt, h).
Proof.
  intros Hp. unfold fix_encoding, mbind, script_bind, get.
  destruct (String.eqb_spec (platform h) "win32"); done.
Qed.

End LauncherProperties.

(** ** The demo script: the sampled transaction and its display *)

Section DemoFurther.

Import Demo.
Local Open Scope Q_scope.

Context {G : Type} `{!PRNG G} (backend : Backend G).

Implicit Types (p : Portfolio) (w : World G) (g : G).

(** [random.uniform] does not ask for its arguments to be in order. *)
Lemma uniform_between_reversed (lo hi r : Q) :
  hi <= lo → 0 <= r → r < 1 →
  hi <= lo + (hi - lo) * r ∧ lo + (hi - lo) * r <= lo.
Proof. intros Hlh Hr0 Hr1. split; nra. Qed.



(** Rounding moves a number by at most one half. *)
Lemma round_half_even_error (x : Q) :
  Qabs (inject_Z (round_half_even x) - x) <= 1 # 2.
Proof.
  unfold round_half_even.
  pose proof (Qfloor_le x) as Hlo. pose proof (Qlt_floor x) as Hhi.
  rewrite inject_Z_plus in Hhi. change (inject_Z 1) with 1 in Hhi.
  apply Qabs_Qle_condition.
  destruct (Qcompare_spec (x - inject_Z (Qfloor x)) (1 # 2)) as [He|Hl|Hg].
  - destruct (Z.even (Qfloor x)); rewrite ?inject_Z_plus;
      change (inject_Z 1) with 1; split; lra.
  - split; lra.
  - rewrite inject_Z_plus. change (inject_Z 1) with 1. split; lra.
Qed.

Lemma round_half_even_nonneg (x : Q) : 0 <= x → (0 <= round_half_even x)%Z.
Proof.
  intros Hx. unfold round_half_even.
  assert (0 <= Qfloor x)%Z as Hf
    by (rewrite <- (Qfloor_Z 0); by apply Qfloor_resp_le).
  destruct (Qcompare _ _); [destruct (Z.even _)|..]; lia.
Qed.

(** X9.  When the total value of the generated portfolio is negative or
    zero, the bounds of the sampled amount are the other way round: it lies
    between 40% and 20% of the total. *)
Theorem sampled_amount_reversed_for_negative_total g :
  portfolio_total (generate_random_portfolio backend g).1 <= 0 →
  ∃ v w, run backend g = (Ok v, w)
     ∧ total_value v = portfolio_total (generate_random_portfolio backend g).1
     ∧ 0.4 * total_value v <= amount v
     ∧ amount v <= 0.2 * total_value v.
Proof.
  intros Htotal.
  destruct (run_complete backend g) as (x & v & _ & -> & Hrun).
  eexists _, _. split; [exact Hrun|]. cbn [total_value amount].
  split; [done|].
  destruct (next_random_range (generate_random_portfolio backend g).2)
    as [Hr0 Hr1].
  set (t := portfolio_total _) in *. set (r := (next_random _).1) in *.
  clearbody t r.
  destruct (uniform_between_reversed (t * 0.2) (t * 0.4) r) as [Hlo Hhi];
    [lra | done | done |].
  split; lra.
Qed.


(** X11.  The purpose does not depend on the portfolio at all: from the
    same state of the generator the sampling step picks the same purpose and
    leaves the generator in the same state, whatever the two portfolios and
    their total values are. *)
Theorem purpose_independent_of_portfolio p1 p2 w1 w2 :
  rng w1 = rng w2 →
  ∃ s g',
    (∃ d t a ps w', generate_transaction p1 w1 = (Ok (d, t, a, ps, s), w')
                    ∧ rng w' = g')
    ∧ (∃ d t a ps w', generate_transaction p2 w2 = (Ok (d, t, a, ps, s), w')
                      ∧ rng w' = g').
Proof.
  intros Hrng.
  destruct (generate_transaction_run p1 w1) as (x1 & w1' & Hx1 & Hg1 & Hrun1).
  destruct (generate_transaction_run p2 w2) as (x2 & w2' & Hx2 & Hg2 & Hrun2).
  rewrite <- Hrng in Hx2, Hg2, Hrun2.
  assert (x2 = x1) as -> by congruence.
  exists x1. eexists. split.
  - eexists _, _, _, _, _. split; [exact Hrun1 | exact Hg1].
  - eexists _, _, _, _, _. split; [exact Hrun2 | exact Hg2].
Qed.

Lemma two_digits (z : Z) :
  (0 <= z < 100)%Z →
  String.length ((if (z <? 10)%Z then "0" else "") +:+ pretty z) = 2%nat.
Proof.
  intros Hz.
  assert (z ∈ seqZ 0 100) as Hin by (apply elem_of_seqZ; lia).
  clear Hz. revert z Hin. apply Forall_forall. compute_done.
Qed.

(** X12.  The amount is shown rounded to the cent: the text is a minus sign
    for a negative amount, the whole part, a point and exactly two digits,
    of a number of cents that is within half a cent of the size of the
    amount. *)
Theorem displayed_amount_rounds_to_cents (x : Q) :
  ∃ (c : Z) (frac : string),
    (0 <= c)%Z
    ∧ Qabs (inject_Z c / 100 - Qabs x) <= 1 # 200
    ∧ frac = (if (c mod 100 <? 10)%Z then "0" else "") +:+ pretty (c mod 100)%Z
    ∧ String.length frac = 2%nat
    ∧ format_2f x =
        (if Qle_bool 0 x then "" else "-")
          +:+ pretty (c / 100)%Z +:+ "." +:+ frac.
Proof.
  exists (round_half_even (Qabs x * 100)). eexists.
  split; [|split; [|split; [reflexivity|split; [|reflexivity]]]].
  - apply round_half_even_nonneg. pose proof (Qabs_nonneg x) as Ha.
    set (a := Qabs x) in *. clearbody a. lra.
  - pose proof (round_half_even_error (Qabs x * 100)) as He.
    apply Qabs_Qle_condition in He. apply Qabs_Qle_condition.
    set (a := Qabs x) in *. set (c := inject_Z _) in *. clearbody a c.
    unfold Qdiv. change (/ 100) with (1 # 100). split; lra.
  - apply two_digits. by apply Z.mod_pos_bound.
Qed.

End DemoFurther.

(** ** The further properties on concrete inputs *)

Section FurtherExamples.

Import Bootstrap Demo Launcher Scenario Cases.
Local Open Scope Q_scope.

Lemma bootstrap_output_independent_of_key_witness :
  let env : gmap string string := {[ "OPENAI_API_KEY" := "sk-test" ]} in
  let env' : gmap string string := {[ "OPENAI_API_KEY" := "sk-other" ]} in
  rejected (effective_key ∅ env) = rejected (effective_key ∅ env')
  ∧ printed (Bootstrap.trace (Bootstrap.run ∅ env).2)
      = printed (Bootstrap.trace (Bootstrap.run ∅ env').2).
Proof.
  intros env env'. split.
  - vm_compute. reflexivity.
  - apply (bootstrap_output_independent_of_key ∅ env ∅ env').
    vm_compute. reflexivity.
Defined.

(** The key is in the process environment, the .env file is the template
    with the placeholder left in: the script accepts the key. *)
Lemma dotenv_ignored_when_variable_set_witness :
  let env : gmap string string := {[ "OPENAI_API_KEY" := "sk-test" ]} in
  env !! "OPENAI_API_KEY" = Some "sk-test"
  ∧ (Bootstrap.run template_dotenv env).1 = (Bootstrap.run ∅ env).1
  ∧ Bootstrap.trace (Bootstrap.run template_dotenv env).2
      = Bootstrap.trace (Bootstrap.run ∅ env).2.
Proof.
  intros env. split.
  - vm_compute. reflexivity.
  - apply (dotenv_ignored_when_variable_set template_dotenv ∅ env "sk-test").
    vm_compute. reflexivity.
Defined.

Lemma dotenv_used_when_variable_unset_witness :
  let dotenv : gmap string string := {[ "OPENAI_API_KEY" := "sk-test" ]} in
  let env : gmap string string := {[ "HOME" := "/home/user" ]} in
  (env !! "OPENAI_API_KEY" = None ∧ dotenv !! "OPENAI_API_KEY" = Some "sk-test")
  ∧ (Bootstrap.run dotenv env).1
      = (Bootstrap.run ∅ (<["OPENAI_API_KEY" := "sk-test"]> env)).1
  ∧ Bootstrap.trace (Bootstrap.run dotenv env).2
      = Bootstrap.trace
          (Bootstrap.run ∅ (<["OPENAI_API_KEY" := "sk-test"]> env)).2.
Proof.
  intros dotenv env. split.
  - split; vm_compute; reflexivity.
  - apply (dotenv_used_when_variable_unset dotenv env "sk-test").
    + vm_compute. reflexivity.
    + vm_compute. reflexivity.
Defined.

Lemma empty_variable_masks_dotenv_key_witness :
  let dotenv : gmap string string := {[ "OPENAI_API_KEY" := "sk-test" ]} in
  let env : gmap string string := {[ "OPENAI_API_KEY" := "" ]} in
  env !! "OPENAI_API_KEY" = Some ""
  ∧ (Bootstrap.run dotenv env).1 = Exited 1
  ∧ printed (Bootstrap.trace (Bootstrap.run dotenv env).2) = warning
  ∧ clients (Bootstrap.trace (Bootstrap.run dotenv env).2) = [].
Proof.
  intros dotenv env. split.
  - vm_compute. reflexivity.
  - apply (empty_variable_masks_dotenv_key dotenv env).
    vm_compute. reflexivity.
Defined.

Lemma fix_encoding_only_on_windows_witness :
  let h : Host Z := boot "linux" "ascii" ["/usr/lib/python3"] 42%Z in
  platform h ≠ "win32"
  ∧ fix_encoding no_such_method h = (Ok tt, h).
Proof.
  intros h. split.
  - discriminate.
  - apply (fix_encoding_only_on_windows no_such_method h). discriminate.
Defined.

(** On win32 a text stream ends up in UTF-8; a stream that cannot be
    reconfigured, or whose method exits, keeps its encoding, and the script
    goes on all the same. *)
Example fix_encoding_on_windows :
  let h : Host Z := boot "win32" "cp1252" [] 42%Z in
  fix_encoding text_stream h = (Ok tt, boot "win32" "utf-8" [] 42%Z)
  ∧ fix_encoding no_such_method h = (Ok tt, h)
  ∧ fix_encoding exiting_stream h = (Ok tt, h).
Proof. repeat split; reflexivity. Qed.

(** C3, as stated, fails.  The portfolio holds a short position, so its
    total value is negative (-100): the sampled amount is then below 20% of
    the total, which is the larger of the two bounds. *)
Lemma sampled_amount_outside_bounds_for_short_portfolio :
  ∃ v w, Demo.run short_backend 42%Z = (Ok v, w)
     ∧ portfolio v = short_portfolio
     ∧ total_value v == -100
     ∧ ¬ (0.2 * total_value v <= amount v ∧ amount v <= 0.4 * total_value v).
Proof.
  destruct (run_complete short_backend 42%Z) as (x & v & _ & -> & Hrun).
  eexists _, _. split; [exact Hrun|]. cbn [portfolio total_value amount].
  split; [reflexivity|]. split; [vm_compute; reflexivity|].
  intros [Hlo _]. vm_compute in Hlo. by apply Hlo.
Qed.

Lemma sampled_amount_reversed_for_negative_total_witness :
  portfolio_total (generate_random_portfolio short_backend 42%Z).1 <= 0
  ∧ ∃ v w, Demo.run short_backend 42%Z = (Ok v, w)
       ∧ total_value v
           = portfolio_total (generate_random_portfolio short_backend 42%Z).1
       ∧ 0.4 * total_value v <= amount v
       ∧ amount v <= 0.2 * total_value v.
Proof.
  split.
  - vm_compute. discriminate.
  - apply (sampled_amount_reversed_for_negative_total short_backend 42%Z).
    vm_compute. discriminate.
Defined.


Lemma purpose_independent_of_portfolio_witness :
  let w1 : World Z := {| rng := 42%Z; trace := [] |} in
  let w2 : World Z := {| rng := 42%Z; trace := [Generate] |} in
  rng w1 = rng w2
  ∧ ∃ s g',
      (∃ d t a ps w',
          generate_transaction example_portfolio w1
            = (Ok (d, t, a, ps, s), w') ∧ rng w' = g')
      ∧ (∃ d t a ps w',
            generate_transaction short_portfolio w2
              = (Ok (d, t, a, ps, s), w') ∧ rng w' = g').
Proof.
  intros w1 w2. split.
  - reflexivity.
  - apply (purpose_independent_of_portfolio
             example_portfolio short_portfolio w1 w2).
    reflexivity.
Defined.

End FurtherExamples.
